(** * hw/fsi/cfam.c: the IBM Common FRU Access Macro

    A shallow embedding of the CFAM configuration region, the scratchpad
    engine and the address map that [fsi_cfam_realize] builds, followed by
    the properties the register-level description of the device states
    about them.

    Conventions.  C integers are [Z] with every conversion written out
    ([uint32_t], [uint64_t], [int]).  A [MemoryRegionOps] callback receives
    the device through a mutable [opaque] pointer, so callbacks are
    computations in a state monad over the device they receive.  The
    [trace_*] calls are diagnostics with no effect on the device and are
    left out. *)

From Stdlib Require Import ZArith List Bool Lia.
Import ListNotations.
Local Open Scope Z_scope.

Set Default Proof Using "Type".

(** ** Machine integers *)

Definition uint32_t (x : Z) : Z := x mod 2 ^ 32.
Definition uint64_t (x : Z) : Z := x mod 2 ^ 64.
(** Conversion to a 32-bit two's complement [int]. *)
Definition int (x : Z) : Z := (x + 2 ^ 31) mod 2 ^ 32 - 2 ^ 31.

(** ** State monad for callbacks acting on a device *)

Definition State (S A : Type) : Type := S -> A * S.

Definition ret {S A : Type} (a : A) : State S A := fun s => (a, s).

Definition bind {S A B : Type} (c : State S A) (k : A -> State S B)
  : State S B :=
  fun s => let (a, s') := c s in k a s'.

Definition get {S : Type} : State S S := fun s => (s, s).

Definition put {S : Type} (s : S) : State S unit := fun _ => (tt, s).

Definition eval {S A : Type} (c : State S A) (s : S) : A := fst (c s).

Definition exec {S A : Type} (c : State S A) (s : S) : S := snd (c s).

Notation "x <- c1 ;; c2" := (bind c1 (fun x => c2))
  (at level 61, c1 at next level, right associativity).
Notation "c1 ;;; c2" := (bind c1 (fun _ => c2))
  (at level 61, right associativity).

(** ** Constants of cfam.c *)

Definition ENGINE_CONFIG_TYPE_PEEK : Z := Z.shiftl 0x02 4.
Definition ENGINE_CONFIG_TYPE_FSI : Z := Z.shiftl 0x03 4.
Definition ENGINE_CONFIG_TYPE_SCRATCHPAD : Z := Z.shiftl 0x06 4.

Definition TO_REG (x : Z) : Z := Z.shiftr x 2.

Definition CFAM_ENGINE_CONFIG : Z := TO_REG 0x04.

Definition CFAM_CONFIG_CHIP_ID : Z := TO_REG 0x00.
Definition CFAM_CONFIG_CHIP_ID_P9 : Z := 0xc0022d15.
Definition CFAM_CONFIG_CHIP_ID_BREAK : Z := 0xc0de0000.

(** ** The scratchpad engine *)

(** [FSIScratchPad]: the one register, a [uint32_t]. *)
Record FSIScratchPad : Type := { reg : Z }.

Definition fsi_scratchpad_read (addr size : Z) : State FSIScratchPad Z :=
  s <- get ;;
  if negb (addr =? 0) then ret 0
  else ret (reg s).

Definition fsi_scratchpad_write (addr data size : Z)
  : State FSIScratchPad unit :=
  if negb (addr =? 0) then ret tt
  else put {| reg := uint32_t data |}.

Definition fsi_scratchpad_reset (s : FSIScratchPad) : FSIScratchPad :=
  {| reg := 0 |}.

(** The class of an engine on the local bus, over the state [S] of its
    instances: [DeviceClass.reset] and [FSILBusDeviceClass.config]. *)
Record FSILBusDeviceClass (S : Type) : Type :=
  { reset : S -> S;
    config : Z }.
Arguments reset {S} _ _.
Arguments config {S} _.

(** What cfam.c takes from the rest of the device model. *)
Class Collaborators : Type :=
  { (** [BE_BIT] comes from a header outside this file.  Nothing below
        depends on the bit it selects. *)
    BE_BIT : Z -> Z;
    (** Instance state of the engine types that other files define. *)
    EngineState : Type;
    (** [FSISlaveState], the parent object of the CFAM, with the register
        window [slave->iomem] that another file implements and its size,
        the W of the address map. *)
    FSISlaveState : Type;
    slave_iomem_size : Z;
    fsi_slave_read : Z -> Z -> State FSISlaveState Z;
    fsi_slave_write : Z -> Z -> Z -> State FSISlaveState unit;
    (** Size of the local bus region [lbus.mr], the X of the address map,
        set where the bus type is defined. *)
    lbus_mr_size : Z }.

Section CFAM.

Context {ext : Collaborators}.

Definition ENGINE_CONFIG_NEXT : Z := BE_BIT 0.

(** [fsi_scratchpad_class_init]; [config] is a [uint32_t] field. *)
Definition fsi_scratchpad_class_init : FSILBusDeviceClass FSIScratchPad :=
  {| reset := fsi_scratchpad_reset;
     config :=
       uint32_t
         (Z.lor (Z.lor (Z.lor (Z.lor
            ENGINE_CONFIG_NEXT               (* valid *)
            0x00010000)                      (* slots *)
            0x00001000)                      (* version *)
            ENGINE_CONFIG_TYPE_SCRATCHPAD)   (* type *)
            0x00000007)                      (* crc *) |}.

(** A [BusChild] of [lbus.bus.children].  [kid->child] is a pointer: either
    to the scratchpad embedded in the CFAM, whose register therefore lives
    in [FSICFAMState] and nowhere else, or to an engine of another type,
    which only the bus refers to and which is kept here with its class. *)
Inductive BusChild : Type :=
| child_scratchpad
| child_engine (klass : FSILBusDeviceClass EngineState) (st : EngineState).

(** [FSICFAMState]: the parent slave, the embedded scratchpad and the
    children of [lbus.bus] in the order [QTAILQ_FOREACH] visits them. *)
Record FSICFAMState : Type :=
  { parent : FSISlaveState;
    scratchpad : FSIScratchPad;
    lbus_children : list BusChild }.

(** [FSI_LBUS_DEVICE_GET_CLASS(dev)->config] for [dev = kid->child]; the
    [uint32_t] keeps its value in the [uint64_t] that is returned. *)
Definition FSI_LBUS_DEVICE_GET_CLASS_config (kid : BusChild) : Z :=
  match kid with
  | child_scratchpad => config fsi_scratchpad_class_init
  | child_engine klass _ => config klass
  end.

(** The [default:] branch of [fsi_cfam_config_read] from the loop on: [i]
    is an [int], [addr] a [uint64_t], [size] an [unsigned]; [i == addr]
    compares in [uint64_t] and [i += size] adds in [unsigned] and converts
    back to [int]. *)
Fixpoint config_walk (kids : list BusChild) (i : Z) (addr size : Z) : Z :=
  match kids with
  | kid :: rest =>
      if uint64_t i =? addr then FSI_LBUS_DEVICE_GET_CLASS_config kid
      else config_walk rest (int (uint32_t i + size)) addr size
  | [] =>
      if uint64_t i =? addr then 0
      else CFAM_CONFIG_CHIP_ID_BREAK
  end.

Definition fsi_cfam_config_read (addr size : Z) : State FSICFAMState Z :=
  cfam <- get ;;
  if addr =? 0x00 then ret CFAM_CONFIG_CHIP_ID_P9
  else if addr =? 0x04 then
    ret (uint64_t
           (Z.lor (Z.lor (Z.lor (Z.lor
              ENGINE_CONFIG_NEXT             (* valid *)
              0x00010000)                    (* slots *)
              0x00001000)                    (* version *)
              ENGINE_CONFIG_TYPE_PEEK)       (* type *)
              0x0000000c))                   (* crc *)
  else if addr =? 0x08 then
    ret (uint64_t
           (Z.lor (Z.lor (Z.lor (Z.lor
              ENGINE_CONFIG_NEXT             (* valid *)
              0x00010000)                    (* slots *)
              0x00005000)                    (* version *)
              ENGINE_CONFIG_TYPE_FSI)        (* type *)
              0x0000000a))                   (* crc *)
  else
    (* The config table contains different engines from 0xc onwards. *)
    ret (config_walk (lbus_children cfam) 0xc addr size).

(** Reset of one child: the [reset] of its class on that device. *)
Definition device_cold_reset (kid : BusChild) (sp : FSIScratchPad)
  : BusChild * FSIScratchPad :=
  match kid with
  | child_scratchpad =>
      (child_scratchpad, reset fsi_scratchpad_class_init sp)
  | child_engine klass st => (child_engine klass (reset klass st), sp)
  end.

Fixpoint children_cold_reset (kids : list BusChild) (sp : FSIScratchPad)
  : list BusChild * FSIScratchPad :=
  match kids with
  | [] => ([], sp)
  | kid :: rest =>
      let (kid', sp') := device_cold_reset kid sp in
      let (rest', sp'') := children_cold_reset rest sp' in
      (kid' :: rest', sp'')
  end.

(** Modelled from the spec: [bus_cold_reset] belongs to the device
    framework and is not part of this file; "cold_reset() broadcasts a
    reset to every attached engine", each returning to its reset state. *)
Definition bus_cold_reset : State FSICFAMState unit :=
  cfam <- get ;;
  let (kids, sp) :=
    children_cold_reset (lbus_children cfam) (scratchpad cfam) in
  put {| parent := parent cfam; scratchpad := sp; lbus_children := kids |}.

Definition fsi_cfam_config_write (addr data size : Z)
  : State FSICFAMState unit :=
  let r := TO_REG addr in
  if (r =? CFAM_CONFIG_CHIP_ID) || (r =? CFAM_CONFIG_CHIP_ID + 4) then
    if data =? CFAM_CONFIG_CHIP_ID_BREAK then bus_cold_reset
    else ret tt
  else ret tt.

Definition fsi_cfam_unimplemented_read (addr size : Z)
  : State FSICFAMState Z :=
  ret 0.

Definition fsi_cfam_unimplemented_write (addr data size : Z)
  : State FSICFAMState unit :=
  ret tt.

(** [fsi_cfam_instance_init] and [fsi_cfam_realize]: the scratchpad child
    is initialised (objects start zeroed, so [reg] is 0) and realized on
    [lbus], which makes it the one child of the bus.  The error return of
    [qdev_realize_and_unref] leaves no CFAM to speak of and is not
    modelled. *)
Definition fsi_cfam_realize (slave : FSISlaveState) : FSICFAMState :=
  {| parent := slave;
     scratchpad := {| reg := 0 |};
     lbus_children := [child_scratchpad] |}.

(** ** The address map built by [fsi_cfam_realize] *)

(** The regions with callbacks: [cfam->config_iomem], [slave->iomem], the
    scratchpad's [iomem] and the 2 MiB container [cfam->mr] itself. *)
Inductive MemoryRegion : Type :=
| config_iomem
| slave_iomem
| scratchpad_iomem
| mr.

Definition in_range (lo len a : Z) : bool := (lo <=? a) && (a <? lo + len).

(** Modelled from the spec: which region answers an access is decided by
    the memory API, which is not part of this file.  The subregions are
    those [fsi_cfam_realize] adds: [config_iomem] (size 0x400) at 0,
    [slave->iomem] at 0x800, [lbus.mr] at 0xc00 with the scratchpad's
    window (size 0x400, [fsi_scratchpad_realize]) at its offset 0; "all
    addresses not claimed by a subregion" end in the container [cfam->mr],
    and so does an offset of [lbus.mr] past the scratchpad's window, where
    no engine is mapped.  The result is the region and the offset inside
    it. *)
Definition cfam_mr_resolve (a : Z) : MemoryRegion * Z :=
  if in_range 0 0x400 a then (config_iomem, a)
  else if in_range 0x800 slave_iomem_size a then (slave_iomem, a - 0x800)
  else if in_range 0xc00 lbus_mr_size a then
    if in_range 0 0x400 (a - 0xc00) then (scratchpad_iomem, a - 0xc00)
    else (mr, a)
  else (mr, a).

(** Run a callback of a part of the CFAM on the whole CFAM. *)
Definition on_scratchpad {A : Type} (c : State FSIScratchPad A)
  : State FSICFAMState A :=
  cfam <- get ;;
  let (a, sp) := c (scratchpad cfam) in
  put {| parent := parent cfam; scratchpad := sp;
         lbus_children := lbus_children cfam |} ;;;
  ret a.

Definition on_parent {A : Type} (c : State FSISlaveState A)
  : State FSICFAMState A :=
  cfam <- get ;;
  let (a, sl) := c (parent cfam) in
  put {| parent := sl; scratchpad := scratchpad cfam;
         lbus_children := lbus_children cfam |} ;;;
  ret a.

Definition cfam_read (a size : Z) : State FSICFAMState Z :=
  match cfam_mr_resolve a with
  | (config_iomem, off) => fsi_cfam_config_read off size
  | (slave_iomem, off) => on_parent (fsi_slave_read off size)
  | (scratchpad_iomem, off) => on_scratchpad (fsi_scratchpad_read off size)
  | (mr, off) => fsi_cfam_unimplemented_read off size
  end.

Definition cfam_write (a data size : Z) : State FSICFAMState unit :=
  match cfam_mr_resolve a with
  | (config_iomem, off) => fsi_cfam_config_write off data size
  | (slave_iomem, off) => on_parent (fsi_slave_write off data size)
  | (scratchpad_iomem, off) =>
      on_scratchpad (fsi_scratchpad_write off data size)
  | (mr, off) => fsi_cfam_unimplemented_write off data size
  end.

(** One access of the bus master to the CFAM address space. *)
Inductive access : Type :=
| mem_read (a size : Z)
| mem_write (a data size : Z).

Definition cfam_access (acc : access) (cfam : FSICFAMState) : FSICFAMState :=
  match acc with
  | mem_read a size => exec (cfam_read a size) cfam
  | mem_write a data size => exec (cfam_write a data size) cfam
  end.

Definition cfam_run (accs : list access) (cfam : FSICFAMState)
  : FSICFAMState :=
  fold_left (fun s acc => cfam_access acc s) accs cfam.

(** The states of a CFAM after construction. *)
Inductive reachable : FSICFAMState -> Prop :=
| reachable_realize (slave : FSISlaveState) :
    reachable (fsi_cfam_realize slave)
| reachable_access (acc : access) (cfam : FSICFAMState) :
    reachable cfam -> reachable (cfam_access acc cfam).

(** The region that answers an access. *)
Definition access_region (acc : access) : MemoryRegion :=
  match acc with
  | mem_read a _ | mem_write a _ _ => fst (cfam_mr_resolve a)
  end.

(** The class of a child with its register state left out; the scratchpad
    is the child whose state is [scratchpad] of the CFAM. *)
Definition kid_class (kid : BusChild)
  : option (FSILBusDeviceClass EngineState) :=
  match kid with
  | child_scratchpad => None
  | child_engine klass _ => Some klass
  end.

(** The writes that call [bus_cold_reset]. *)
Definition resets (off data : Z) : bool :=
  ((TO_REG off =? CFAM_CONFIG_CHIP_ID)
   || (TO_REG off =? CFAM_CONFIG_CHIP_ID + 4))
  && (data =? CFAM_CONFIG_CHIP_ID_BREAK).

(** The accesses that overwrite the scratchpad register (a write that
    arrives at offset 0 of its window) or reset it. *)
Definition overwrites_or_resets (acc : access) : bool :=
  match acc with
  | mem_read _ _ => false
  | mem_write a data _ =>
      match cfam_mr_resolve a with
      | (scratchpad_iomem, off) => off =? 0
      | (config_iomem, off) => resets off data
      | _ => false
      end
  end.

(** The write rule in the words of the description: a reset exactly for
    the sentinel written at byte address 0x00 or 0x04, and no change of
    state otherwise. *)
Definition write_rule_as_described : Prop :=
  forall (cfam : FSICFAMState) (addr data : Z),
    ((addr = 0x00 \/ addr = 0x04) /\ data = CFAM_CONFIG_CHIP_ID_BREAK ->
     fsi_cfam_config_write addr data 4 cfam = bus_cold_reset cfam) /\
    (~ ((addr = 0x00 \/ addr = 0x04) /\ data = CFAM_CONFIG_CHIP_ID_BREAK) ->
     fsi_cfam_config_write addr data 4 cfam = (tt, cfam)).

(** The configuration region as an array of words, one for every four
    bytes: the three fixed words, the descriptor of each child in turn and
    the end marker. *)
Definition config_table (cfam : FSICFAMState) : list Z :=
  CFAM_CONFIG_CHIP_ID_P9
  :: uint64_t
       (Z.lor (Z.lor (Z.lor (Z.lor ENGINE_CONFIG_NEXT 0x00010000)
                        0x00001000) ENGINE_CONFIG_TYPE_PEEK) 0x0000000c)
  :: uint64_t
       (Z.lor (Z.lor (Z.lor (Z.lor ENGINE_CONFIG_NEXT 0x00010000)
                        0x00005000) ENGINE_CONFIG_TYPE_FSI) 0x0000000a)
  :: map FSI_LBUS_DEVICE_GET_CLASS_config (lbus_children cfam) ++ [0].

(** What is done to a scratchpad: a call of one of its two callbacks or
    of the reset of its class. *)
Inductive scratchpad_op : Type :=
| sp_read (addr size : Z)
| sp_write (addr data size : Z)
| sp_reset.

Definition scratchpad_step (op : scratchpad_op) (sp : FSIScratchPad)
  : FSIScratchPad :=
  match op with
  | sp_read addr size => exec (fsi_scratchpad_read addr size) sp
  | sp_write addr data size => exec (fsi_scratchpad_write addr data size) sp
  | sp_reset => fsi_scratchpad_reset sp
  end.

Definition scratchpad_run (ops : list scratchpad_op) (sp : FSIScratchPad)
  : FSIScratchPad :=
  fold_left (fun s op => scratchpad_step op s) ops sp.

(** The operations other than a write at offset 0 and a reset. *)
Definition sp_other (op : scratchpad_op) : bool :=
  match op with
  | sp_read _ _ => true
  | sp_write addr _ _ => negb (addr =? 0)
  | sp_reset => false
  end.

End CFAM.

(** ** Concrete devices to run the definitions on

    Big-endian bit numbering for [BE_BIT], engines with one register of
    type [Z], a slave without state whose window of 0x400 bytes reads 0,
    and a local bus region of 0x400 bytes. *)

Definition example_collaborators : Collaborators :=
  {| BE_BIT := fun x => 2 ^ (31 - x);
     EngineState := Z;
     FSISlaveState := unit;
     slave_iomem_size := 0x400;
     fsi_slave_read := fun _ _ => ret 0;
     fsi_slave_write := fun _ _ _ => ret tt;
     lbus_mr_size := 0x400 |}.

(** The CFAM as realized. *)
Definition realized : @FSICFAMState example_collaborators :=
  @fsi_cfam_realize example_collaborators tt.

(** The CFAM as realized with [v] in the scratchpad register. *)
Definition scratchpad_holds (v : Z) : @FSICFAMState example_collaborators :=
  {| parent := tt : @FSISlaveState example_collaborators;
     scratchpad := {| reg := v |};
     lbus_children := [child_scratchpad] |}.

(** An engine with descriptor word 0x1234 whose register resets to 0. *)
Definition engine_0x1234 : @BusChild example_collaborators :=
  @child_engine example_collaborators
    {| reset := fun _ : Z => 0; config := 0x1234 |} 5.

(** A bus with a second engine after the scratchpad. *)
Definition two_engines : @FSICFAMState example_collaborators :=
  {| parent := tt : @FSISlaveState example_collaborators;
     scratchpad := {| reg := 1 |};
     lbus_children := [child_scratchpad; engine_0x1234] |}.

Section Properties.

Context {ext : Collaborators}.

(** Unfolding of the monad in a goal. *)
Ltac run_state :=
  unfold exec, eval, on_scratchpad, on_parent, bind, get, put, ret;
  cbn [fst snd].

(** ** Arithmetic of the walk counter *)

Lemma int_small (v : Z) : 0 <= v < 2 ^ 31 -> int v = v.
Proof.
  intros Hv. unfold int.
  change (2 ^ 31) with 2147483648 in *. change (2 ^ 32) with 4294967296.
  rewrite Z.mod_small; lia.
Qed.

Lemma int_add_size (v : Z) : int (uint32_t (int v) + 4) = int (v + 4).
Proof.
  unfold int, uint32_t.
  change (2 ^ 31) with 2147483648. change (2 ^ 32) with 4294967296.
  f_equal. clear.
  Z.to_euclidean_division_equations. lia.
Qed.

Lemma uint64_int_range (v a : Z) :
  0 <= a < 2 ^ 31 -> uint64_t (int v) = a -> v mod 2 ^ 32 = a.
Proof.
  unfold uint64_t, int.
  change (2 ^ 31) with 2147483648. change (2 ^ 32) with 4294967296.
  change (2 ^ 64) with 18446744073709551616.
  intros Ha H. clear - Ha H.
  Z.to_euclidean_division_equations. lia.
Qed.

Lemma uint64_int_small (v : Z) : 0 <= v < 2 ^ 31 -> uint64_t (int v) = v.
Proof.
  intros Hv. rewrite int_small by exact Hv.
  unfold uint64_t. change (2 ^ 31) with 2147483648 in Hv.
  change (2 ^ 64) with 18446744073709551616.
  apply Z.mod_small. lia.
Qed.

(** ** The walk over the engine table

    In the lemmas below the walk has reached child number [j], so that the
    counter is [int (0xc + 4 * j)]. *)

Lemma config_walk_hit (kids : list BusChild) :
  forall (j : Z) (k : nat) (kid : BusChild),
    0 <= j ->
    nth_error kids k = Some kid ->
    0xc + 4 * (j + Z.of_nat k) < 0x400 ->
    config_walk kids (int (0xc + 4 * j)) (0xc + 4 * (j + Z.of_nat k)) 4
    = FSI_LBUS_DEVICE_GET_CLASS_config kid.
Proof.
  induction kids as [| kid0 rest IH]; intros j k kid Hj Hnth Hlt.
  - destruct k; discriminate.
  - destruct k as [| k]; cbn [config_walk nth_error] in *.
    + injection Hnth as ->.
      rewrite uint64_int_small by (change (2 ^ 31) with 2147483648; lia).
      replace (0xc + 4 * (j + Z.of_nat 0)) with (0xc + 4 * j) by lia.
      now rewrite Z.eqb_refl.
    + rewrite uint64_int_small by (change (2 ^ 31) with 2147483648; lia).
      destruct (Z.eqb_spec (0xc + 4 * j) (0xc + 4 * (j + Z.of_nat (S k))))
        as [E | _]; [lia |].
      rewrite int_add_size.
      replace (0xc + 4 * j + 4) with (0xc + 4 * (j + 1)) by lia.
      replace (j + Z.of_nat (S k)) with (j + 1 + Z.of_nat k) by lia.
      apply IH; [lia | exact Hnth | lia].
Qed.

Lemma config_walk_end (kids : list BusChild) :
  forall j : Z,
    0 <= j ->
    0xc + 4 * (j + Z.of_nat (length kids)) < 0x400 ->
    config_walk kids (int (0xc + 4 * j))
      (0xc + 4 * (j + Z.of_nat (length kids))) 4 = 0.
Proof.
  induction kids as [| kid0 rest IH]; intros j Hj Hlt;
    cbn [config_walk length] in *;
    rewrite uint64_int_small by (change (2 ^ 31) with 2147483648; lia).
  - replace (0xc + 4 * (j + Z.of_nat 0)) with (0xc + 4 * j) by lia.
    now rewrite Z.eqb_refl.
  - destruct (Z.eqb_spec (0xc + 4 * j)
                (0xc + 4 * (j + Z.of_nat (S (length rest)))))
      as [E | _]; [lia |].
    rewrite int_add_size.
    replace (0xc + 4 * j + 4) with (0xc + 4 * (j + 1)) by lia.
    replace (j + Z.of_nat (S (length rest)))
      with (j + 1 + Z.of_nat (length rest)) by lia.
    apply IH; lia.
Qed.

(** A counter that equals [addr] names a slot at or before the current
    child, also after [int] has wrapped around. *)
Lemma counter_match_slot (j addr : Z) :
  0 <= j -> 0xc <= addr < 0x400 ->
  uint64_t (int (0xc + 4 * j)) = addr ->
  exists k : Z, 0 <= k <= j /\ addr = 0xc + 4 * k.
Proof.
  intros Hj Ha E.
  apply uint64_int_range in E; [| change (2 ^ 31) with 2147483648; lia].
  change (2 ^ 32) with 4294967296 in E.
  exists (j - 1073741824 * ((0xc + 4 * j) / 4294967296)).
  pose proof (Z.div_mod (0xc + 4 * j) 4294967296 ltac:(lia)) as Hdm.
  assert (0 <= (0xc + 4 * j) / 4294967296) by (apply Z.div_pos; lia).
  lia.
Qed.

Lemma config_walk_miss (kids : list BusChild) (addr : Z) :
  0xc <= addr < 0x400 ->
  forall j : Z,
    0 <= j ->
    (forall k : Z, 0 <= k <= j + Z.of_nat (length kids) ->
                   addr <> 0xc + 4 * k) ->
    config_walk kids (int (0xc + 4 * j)) addr 4 = CFAM_CONFIG_CHIP_ID_BREAK.
Proof.
  intros Ha.
  induction kids as [| kid0 rest IH]; intros j Hj Hno;
    cbn [config_walk length] in *;
    destruct (Z.eqb_spec (uint64_t (int (0xc + 4 * j))) addr) as [E | _].
  - destruct (counter_match_slot j addr Hj Ha E) as (k & Hk & Hk').
    exfalso. apply (Hno k); [lia | exact Hk'].
  - reflexivity.
  - destruct (counter_match_slot j addr Hj Ha E) as (k & Hk & Hk').
    exfalso. apply (Hno k); [lia | exact Hk'].
  - rewrite int_add_size.
    replace (0xc + 4 * j + 4) with (0xc + 4 * (j + 1)) by lia.
    apply IH; [lia |].
    intros k Hk. apply Hno. lia.
Qed.

Lemma config_read_default (cfam : FSICFAMState) (addr size : Z) :
  0xc <= addr ->
  fsi_cfam_config_read addr size cfam
  = (config_walk (lbus_children cfam) 0xc addr size, cfam).
Proof.
  intros Ha. unfold fsi_cfam_config_read, bind, get, ret.
  destruct (Z.eqb_spec addr 0x00); [lia |].
  destruct (Z.eqb_spec addr 0x04); [lia |].
  destruct (Z.eqb_spec addr 0x08); [lia |].
  reflexivity.
Qed.

(** C1. A 4-byte read of the configuration region at [addr >= 0x0c] walks
    the children of the local bus in order, child number [k] standing at
    address [0x0c + 4 * k]: at the address of a child it returns the
    descriptor word of that child's class, at the address after the last
    child it returns 0, and at every other address it returns the break
    sentinel; the state is left as it was.  For the CFAM as realized, with
    the scratchpad alone on the bus, the words at 0x0c, 0x10 and 0x14 are
    the scratchpad's descriptor, 0 and the break sentinel. *)
Theorem config_read_engine_table :
  (forall (cfam : FSICFAMState) (addr : Z),
      0x0c <= addr < 0x400 ->
      (forall (k : nat) (kid : BusChild),
          nth_error (lbus_children cfam) k = Some kid ->
          addr = 0x0c + 4 * Z.of_nat k ->
          fsi_cfam_config_read addr 4 cfam
          = (FSI_LBUS_DEVICE_GET_CLASS_config kid, cfam)) /\
      (addr = 0x0c + 4 * Z.of_nat (length (lbus_children cfam)) ->
       fsi_cfam_config_read addr 4 cfam = (0, cfam)) /\
      ((forall k : nat, (k <= length (lbus_children cfam))%nat ->
                        addr <> 0x0c + 4 * Z.of_nat k) ->
       fsi_cfam_config_read addr 4 cfam = (CFAM_CONFIG_CHIP_ID_BREAK, cfam)))
  /\
  (forall slave : FSISlaveState,
      eval (fsi_cfam_config_read 0x0c 4) (fsi_cfam_realize slave)
      = config fsi_scratchpad_class_init /\
      eval (fsi_cfam_config_read 0x10 4) (fsi_cfam_realize slave) = 0 /\
      eval (fsi_cfam_config_read 0x14 4) (fsi_cfam_realize slave)
      = CFAM_CONFIG_CHIP_ID_BREAK).
Proof.
  split.
  - intros cfam addr Ha.
    rewrite config_read_default by lia.
    change (config_walk (lbus_children cfam) 0xc addr 4)
      with (config_walk (lbus_children cfam) (int (0xc + 4 * 0)) addr 4).
    repeat split.
    + intros k kid Hnth ->. f_equal.
      apply (config_walk_hit _ 0 k kid); [lia | exact Hnth | lia].
    + intros ->. f_equal.
      apply (config_walk_end _ 0); lia.
    + intros Hno. f_equal.
      apply config_walk_miss; [exact Ha | lia |].
      intros k Hk ->.
      apply (Hno (Z.to_nat k)); lia.
  - intros slave. repeat split.
Qed.

(** ** Register units *)

Lemma TO_REG_chip_id (addr : Z) :
  0 <= addr -> (TO_REG addr = CFAM_CONFIG_CHIP_ID <-> addr < 0x04).
Proof.
  intros Ha. unfold CFAM_CONFIG_CHIP_ID, TO_REG.
  rewrite !Z.shiftr_div_pow2 by lia. change (2 ^ 2) with 4.
  change (0x00 / 4) with 0. clear - Ha.
  Z.to_euclidean_division_equations. lia.
Qed.

Lemma TO_REG_chip_id_4 (addr : Z) :
  0 <= addr ->
  (TO_REG addr = CFAM_CONFIG_CHIP_ID + 4 <-> 0x10 <= addr < 0x14).
Proof.
  intros Ha. unfold CFAM_CONFIG_CHIP_ID, TO_REG.
  rewrite !Z.shiftr_div_pow2 by lia. change (2 ^ 2) with 4.
  change (0x00 / 4 + 4) with 4. clear - Ha.
  Z.to_euclidean_division_equations. lia.
Qed.

Lemma resets_true (addr data : Z) :
  0 <= addr ->
  (resets addr data = true <->
   (addr < 0x04 \/ 0x10 <= addr < 0x14) /\ data = CFAM_CONFIG_CHIP_ID_BREAK).
Proof.
  intros Ha. unfold resets.
  rewrite andb_true_iff, orb_true_iff, !Z.eqb_eq.
  rewrite (TO_REG_chip_id addr Ha), (TO_REG_chip_id_4 addr Ha).
  reflexivity.
Qed.

Lemma config_write_resets (cfam : FSICFAMState) (addr data size : Z) :
  fsi_cfam_config_write addr data size cfam
  = if resets addr data then bus_cold_reset cfam else (tt, cfam).
Proof.
  unfold fsi_cfam_config_write, resets.
  destruct ((TO_REG addr =? CFAM_CONFIG_CHIP_ID)
            || (TO_REG addr =? CFAM_CONFIG_CHIP_ID + 4));
    destruct (data =? CFAM_CONFIG_CHIP_ID_BREAK); reflexivity.
Qed.

(** ** The cold reset *)

Lemma children_cold_reset_class (kids : list BusChild) :
  forall sp : FSIScratchPad,
    map kid_class (fst (children_cold_reset kids sp)) = map kid_class kids.
Proof.
  induction kids as [| kid rest IH]; intros sp; cbn [children_cold_reset].
  - reflexivity.
  - destruct kid as [| klass st]; cbn [device_cold_reset];
      match goal with
      | |- context [children_cold_reset rest ?x] =>
          specialize (IH x); destruct (children_cold_reset rest x)
      end; cbn [fst map kid_class] in *; now rewrite IH.
Qed.

Lemma bus_cold_reset_scratchpad_only (cfam : FSICFAMState) :
  lbus_children cfam = [child_scratchpad] ->
  bus_cold_reset cfam
  = (tt, {| parent := parent cfam;
            scratchpad := {| reg := 0 |};
            lbus_children := [child_scratchpad] |}).
Proof.
  intros Hkids. unfold bus_cold_reset, bind, get, put.
  rewrite Hkids. reflexivity.
Qed.

Lemma bus_cold_reset_children (cfam : FSICFAMState) :
  lbus_children (exec bus_cold_reset cfam)
  = fst (children_cold_reset (lbus_children cfam) (scratchpad cfam)).
Proof.
  unfold exec, bus_cold_reset, bind, get, put.
  now destruct (children_cold_reset (lbus_children cfam) (scratchpad cfam)).
Qed.

Lemma config_of_kid_class (kid : BusChild) :
  FSI_LBUS_DEVICE_GET_CLASS_config kid
  = match kid_class kid with
    | None => config fsi_scratchpad_class_init
    | Some klass => config klass
    end.
Proof. now destruct kid. Qed.

(** ** What one access does to the parts of the CFAM *)

Lemma on_scratchpad_frame {A : Type} (c : State FSIScratchPad A)
      (cfam : FSICFAMState) :
  lbus_children (exec (on_scratchpad c) cfam) = lbus_children cfam /\
  parent (exec (on_scratchpad c) cfam) = parent cfam /\
  scratchpad (exec (on_scratchpad c) cfam) = exec c (scratchpad cfam) /\
  eval (on_scratchpad c) cfam = eval c (scratchpad cfam).
Proof. run_state. now destruct (c (scratchpad cfam)). Qed.

Lemma on_parent_frame {A : Type} (c : State FSISlaveState A)
      (cfam : FSICFAMState) :
  lbus_children (exec (on_parent c) cfam) = lbus_children cfam /\
  scratchpad (exec (on_parent c) cfam) = scratchpad cfam.
Proof. run_state. now destruct (c (parent cfam)). Qed.

Lemma scratchpad_read_pure (addr size : Z) (sp : FSIScratchPad) :
  exec (fsi_scratchpad_read addr size) sp = sp.
Proof.
  unfold fsi_scratchpad_read. run_state. now destruct (negb (addr =? 0)).
Qed.

Lemma config_read_pure (addr size : Z) (cfam : FSICFAMState) :
  exec (fsi_cfam_config_read addr size) cfam = cfam.
Proof.
  unfold fsi_cfam_config_read. run_state.
  destruct (addr =? 0x00), (addr =? 0x04), (addr =? 0x08); reflexivity.
Qed.

Lemma cfam_read_frame (a size : Z) (cfam : FSICFAMState) :
  lbus_children (exec (cfam_read a size) cfam) = lbus_children cfam /\
  scratchpad (exec (cfam_read a size) cfam) = scratchpad cfam.
Proof.
  unfold cfam_read. destruct (cfam_mr_resolve a) as [[] off].
  - now rewrite config_read_pure.
  - apply on_parent_frame.
  - destruct (on_scratchpad_frame (fsi_scratchpad_read off size) cfam)
      as (Hk & _ & Hs & _).
    now rewrite Hk, Hs, scratchpad_read_pure.
  - split; reflexivity.
Qed.

(** A write either leaves the children and the scratchpad alone, or is a
    write to the scratchpad's window, or is a resetting write to the
    configuration region. *)
Lemma cfam_write_frame (a data size : Z) (cfam : FSICFAMState) :
  let cfam' := exec (cfam_write a data size) cfam in
  match cfam_mr_resolve a with
  | (config_iomem, off) =>
      cfam' = if resets off data then exec bus_cold_reset cfam else cfam
  | (scratchpad_iomem, off) =>
      lbus_children cfam' = lbus_children cfam /\
      scratchpad cfam'
      = exec (fsi_scratchpad_write off data size) (scratchpad cfam)
  | (slave_iomem, _) | (mr, _) =>
      lbus_children cfam' = lbus_children cfam /\
      scratchpad cfam' = scratchpad cfam
  end.
Proof.
  unfold cfam_write. destruct (cfam_mr_resolve a) as [[] off]; cbv zeta.
  - unfold exec at 1. rewrite config_write_resets.
    now destruct (resets off data).
  - apply on_parent_frame.
  - destruct (on_scratchpad_frame (fsi_scratchpad_write off data size) cfam)
      as (Hk & _ & Hs & _).
    now split.
  - split; reflexivity.
Qed.

Lemma cfam_access_class (acc : access) (cfam : FSICFAMState) :
  map kid_class (lbus_children (cfam_access acc cfam))
  = map kid_class (lbus_children cfam).
Proof.
  destruct acc as [a size | a data size]; cbn [cfam_access].
  - now rewrite (proj1 (cfam_read_frame a size cfam)).
  - pose proof (cfam_write_frame a data size cfam) as H. cbv zeta in H.
    destruct (cfam_mr_resolve a) as [[] off].
    + rewrite H. destruct (resets off data); [| reflexivity].
      rewrite bus_cold_reset_children. apply children_cold_reset_class.
    + now rewrite (proj1 H).
    + now rewrite (proj1 H).
    + now rewrite (proj1 H).
Qed.

Lemma cfam_run_class (accs : list access) :
  forall cfam : FSICFAMState,
    map kid_class (lbus_children (cfam_run accs cfam))
    = map kid_class (lbus_children cfam).
Proof.
  induction accs as [| acc accs IH]; intros cfam; cbn [cfam_run fold_left].
  - reflexivity.
  - unfold cfam_run in IH. rewrite IH. apply cfam_access_class.
Qed.

Lemma cfam_access_scratchpad_only (acc : access) (cfam : FSICFAMState) :
  lbus_children cfam = [child_scratchpad] ->
  lbus_children (cfam_access acc cfam) = [child_scratchpad].
Proof.
  intros Hkids.
  destruct acc as [a size | a data size]; cbn [cfam_access].
  - now rewrite (proj1 (cfam_read_frame a size cfam)).
  - pose proof (cfam_write_frame a data size cfam) as H. cbv zeta in H.
    destruct (cfam_mr_resolve a) as [[] off].
    + rewrite H. destruct (resets off data); [| exact Hkids].
      unfold exec. now rewrite bus_cold_reset_scratchpad_only.
    + now rewrite (proj1 H).
    + now rewrite (proj1 H).
    + now rewrite (proj1 H).
Qed.

(** After construction the scratchpad is the one child of the bus. *)
Lemma reachable_children (cfam : FSICFAMState) :
  reachable cfam -> lbus_children cfam = [child_scratchpad].
Proof.
  induction 1 as [slave | acc cfam _ IH].
  - reflexivity.
  - now apply cfam_access_scratchpad_only.
Qed.

Lemma cfam_access_keeps_scratchpad (acc : access) (cfam : FSICFAMState) :
  overwrites_or_resets acc = false ->
  scratchpad (cfam_access acc cfam) = scratchpad cfam.
Proof.
  destruct acc as [a size | a data size];
    cbn [cfam_access overwrites_or_resets].
  - intros _. apply cfam_read_frame.
  - pose proof (cfam_write_frame a data size cfam) as H. cbv zeta in H.
    destruct (cfam_mr_resolve a) as [[] off]; intros Hsafe.
    + now rewrite H, Hsafe.
    + apply H.
    + rewrite (proj2 H). unfold fsi_scratchpad_write, exec.
      now rewrite Hsafe.
    + apply H.
Qed.

Lemma cfam_run_keeps_scratchpad (accs : list access) :
  forall cfam : FSICFAMState,
    forallb (fun acc => negb (overwrites_or_resets acc)) accs = true ->
    scratchpad (cfam_run accs cfam) = scratchpad cfam.
Proof.
  induction accs as [| acc accs IH]; intros cfam Hsafe;
    cbn [cfam_run fold_left forallb] in *.
  - reflexivity.
  - apply andb_true_iff in Hsafe as [Hacc Hrest].
    unfold cfam_run in IH. rewrite IH by exact Hrest.
    apply cfam_access_keeps_scratchpad.
    now apply negb_true_iff.
Qed.

Lemma bus_cold_reset_parent (cfam : FSICFAMState) :
  parent (exec bus_cold_reset cfam) = parent cfam.
Proof.
  unfold exec, bus_cold_reset, bind, get, put.
  now destruct (children_cold_reset (lbus_children cfam) (scratchpad cfam)).
Qed.

Lemma cfam_access_parent (acc : access) (cfam : FSICFAMState) :
  access_region acc <> slave_iomem ->
  parent (cfam_access acc cfam) = parent cfam.
Proof.
  destruct acc as [a size | a data size];
    cbn [cfam_access access_region]; unfold cfam_read, cfam_write;
    destruct (cfam_mr_resolve a) as [[] off]; cbn [fst]; intros Hreg;
    try contradiction; try reflexivity.
  - now rewrite config_read_pure.
  - apply on_scratchpad_frame.
  - unfold exec at 1. rewrite config_write_resets.
    destruct (resets off data); [apply bus_cold_reset_parent | reflexivity].
  - apply on_scratchpad_frame.
Qed.

Lemma cfam_run_parent (accs : list access) :
  forall cfam : FSICFAMState,
    Forall (fun acc => access_region acc <> slave_iomem) accs ->
    parent (cfam_run accs cfam) = parent cfam.
Proof.
  induction accs as [| acc accs IH]; intros cfam Hregs;
    cbn [cfam_run fold_left].
  - reflexivity.
  - inversion Hregs as [| ? ? Hacc Hrest]; subst.
    unfold cfam_run in IH. rewrite IH by exact Hrest.
    now apply cfam_access_parent.
Qed.

Lemma cfam_run_reachable (accs : list access) :
  forall cfam : FSICFAMState,
    reachable cfam -> reachable (cfam_run accs cfam).
Proof.
  induction accs as [| acc accs IH]; intros cfam Hreach;
    cbn [cfam_run fold_left].
  - exact Hreach.
  - apply IH. now apply reachable_access.
Qed.

(** ** Properties of the configuration region *)

(** The decode of a write as it is written, for reference: the switch is
    on the register unit [addr >> 2] and its labels are 0 and
    [CFAM_CONFIG_CHIP_ID + 4], a register unit with a byte stride added to
    it, so that the cold reset is called for the break sentinel at the
    byte addresses [0x00, 0x04) and [0x10, 0x14) and every other write
    leaves the whole state as it was. *)
Theorem config_write_reset_rule :
  forall (cfam : FSICFAMState) (addr data size : Z),
    0 <= addr ->
    ((addr < 0x04 \/ 0x10 <= addr < 0x14) /\
     data = CFAM_CONFIG_CHIP_ID_BREAK ->
     fsi_cfam_config_write addr data size cfam = bus_cold_reset cfam) /\
    (~ ((addr < 0x04 \/ 0x10 <= addr < 0x14) /\
        data = CFAM_CONFIG_CHIP_ID_BREAK) ->
     fsi_cfam_config_write addr data size cfam = (tt, cfam)).
Proof.
  intros cfam addr data size Ha.
  rewrite config_write_resets.
  pose proof (resets_true addr data Ha) as Hr.
  destruct (resets addr data); split; intros H.
  - reflexivity.
  - exfalso. apply H, Hr. reflexivity.
  - apply Hr in H. discriminate.
  - reflexivity.
Qed.

(** C2. The write rule asks for a cold reset when the break sentinel is
    written at byte address 0x04, the alias of the chip identity register.
    The code does not give it: [TO_REG 0x04] is register unit 1
    ([CFAM_ENGINE_CONFIG]), which is neither label of the switch, so the
    write falls to [default:] and leaves every state as it was; on a CFAM
    with the scratchpad alone on the bus the register keeps the value it
    held, where the cold reset would have made it 0. *)
Theorem break_write_0x04_ignored :
  (forall (cfam : FSICFAMState) (size : Z),
      fsi_cfam_config_write 0x04 CFAM_CONFIG_CHIP_ID_BREAK size cfam
      = (tt, cfam)) /\
  TO_REG 0x04 = CFAM_ENGINE_CONFIG /\
  (forall (slave : FSISlaveState) (v : Z),
      reg (scratchpad
             (exec (fsi_cfam_config_write 0x04 CFAM_CONFIG_CHIP_ID_BREAK 4)
                   {| parent := slave;
                      scratchpad := {| reg := v |};
                      lbus_children := [child_scratchpad] |}))
      = v /\
      reg (scratchpad
             (exec bus_cold_reset
                   {| parent := slave;
                      scratchpad := {| reg := v |};
                      lbus_children := [child_scratchpad] |}))
      = 0).
Proof.
  split; [| split].
  - intros cfam size. rewrite config_write_resets. reflexivity.
  - reflexivity.
  - intros slave v. split; reflexivity.
Qed.

(** C3. The break sentinel written at byte address 0x10 resets the local
    bus: the write is the cold reset, and on the CFAM as realized it
    clears a scratchpad register that held any value.  A read at the same
    address of that CFAM returns the end-of-table word 0. *)
Theorem config_write_0x10_resets :
  (forall (cfam : FSICFAMState) (size : Z),
      fsi_cfam_config_write 0x10 CFAM_CONFIG_CHIP_ID_BREAK size cfam
      = bus_cold_reset cfam) /\
  (forall (slave : FSISlaveState) (v : Z),
      scratchpad
        (exec (fsi_cfam_config_write 0x10 CFAM_CONFIG_CHIP_ID_BREAK 4)
              {| parent := slave;
                 scratchpad := {| reg := v |};
                 lbus_children := [child_scratchpad] |})
      = {| reg := 0 |}) /\
  (forall slave : FSISlaveState,
      eval (fsi_cfam_config_read 0x10 4) (fsi_cfam_realize slave) = 0).
Proof.
  repeat split.
Qed.

(** C4. On a CFAM after construction, whatever value was written to the
    scratchpad register before, the break sentinel written at address
    0x00 of the configuration region makes the next read of the scratchpad
    at offset 0 return 0. *)
Theorem break_write_clears_scratchpad :
  forall (cfam : FSICFAMState) (v size : Z),
    reachable cfam ->
    eval (on_scratchpad (fsi_scratchpad_read 0 4))
         (exec (fsi_cfam_config_write 0x00 CFAM_CONFIG_CHIP_ID_BREAK 4)
               (exec (on_scratchpad (fsi_scratchpad_write 0 v size)) cfam))
    = 0.
Proof.
  intros cfam v size Hreach.
  apply reachable_children in Hreach.
  destruct (on_scratchpad_frame (fsi_scratchpad_write 0 v size) cfam)
    as (Hk & _ & _ & _).
  rewrite Hreach in Hk.
  change (fsi_cfam_config_write 0 CFAM_CONFIG_CHIP_ID_BREAK 4)
    with bus_cold_reset.
  unfold exec at 1.
  rewrite (bus_cold_reset_scratchpad_only _ Hk).
  reflexivity.
Qed.

(** C5. On a CFAM after construction, writing the break sentinel at
    address 0x00 twice in a row ends in the same state as writing it
    once. *)
Theorem break_write_idempotent :
  forall cfam : FSICFAMState,
    reachable cfam ->
    exec (fsi_cfam_config_write 0x00 CFAM_CONFIG_CHIP_ID_BREAK 4)
         (exec (fsi_cfam_config_write 0x00 CFAM_CONFIG_CHIP_ID_BREAK 4) cfam)
    = exec (fsi_cfam_config_write 0x00 CFAM_CONFIG_CHIP_ID_BREAK 4) cfam.
Proof.
  intros cfam Hreach.
  apply reachable_children in Hreach.
  change (fsi_cfam_config_write 0 CFAM_CONFIG_CHIP_ID_BREAK 4)
    with bus_cold_reset.
  unfold exec.
  rewrite (bus_cold_reset_scratchpad_only _ Hreach). cbn [snd].
  now rewrite bus_cold_reset_scratchpad_only.
Qed.

(** C6. In every state, whatever is attached to the bus and whatever was
    written before, a read of the configuration region returns the chip
    identity at 0x00, the descriptor of the PEEK pseudo-engine at 0x04 and
    the descriptor of the FSI pseudo-engine at 0x08, three constants, and
    leaves the state as it was. *)
Theorem config_read_fixed_words :
  forall (cfam : FSICFAMState) (size : Z),
    fsi_cfam_config_read 0x00 size cfam = (CFAM_CONFIG_CHIP_ID_P9, cfam) /\
    fsi_cfam_config_read 0x04 size cfam
    = (uint64_t
         (Z.lor (Z.lor (Z.lor (Z.lor ENGINE_CONFIG_NEXT 0x00010000)
                          0x00001000) ENGINE_CONFIG_TYPE_PEEK) 0x0000000c),
       cfam) /\
    fsi_cfam_config_read 0x08 size cfam
    = (uint64_t
         (Z.lor (Z.lor (Z.lor (Z.lor ENGINE_CONFIG_NEXT 0x00010000)
                          0x00005000) ENGINE_CONFIG_TYPE_FSI) 0x0000000a),
       cfam).
Proof.
  intros cfam size. repeat split.
Qed.

(** ** Properties of the scratchpad engine *)

(** C7. A 32-bit value written to the scratchpad at offset 0 is what a
    read at offset 0 returns, and it stays so through every sequence of
    accesses to the CFAM in which no write arrives at offset 0 of the
    scratchpad and no write resets the bus. *)
Theorem scratchpad_round_trip :
  forall (cfam : FSICFAMState) (v size size' : Z) (accs : list access),
    0 <= v < 2 ^ 32 ->
    forallb (fun acc => negb (overwrites_or_resets acc)) accs = true ->
    eval (fsi_scratchpad_read 0 size')
         (exec (fsi_scratchpad_write 0 v size) (scratchpad cfam)) = v /\
    eval (on_scratchpad (fsi_scratchpad_read 0 size'))
         (cfam_run accs
            (exec (on_scratchpad (fsi_scratchpad_write 0 v size)) cfam))
    = v.
Proof.
  intros cfam v size size' accs Hv Hsafe.
  assert (Hrt : eval (fsi_scratchpad_read 0 size')
                     (exec (fsi_scratchpad_write 0 v size) (scratchpad cfam))
                = v).
  { cbn. unfold uint32_t. apply Z.mod_small. exact Hv. }
  split; [exact Hrt |].
  destruct (on_scratchpad_frame (fsi_scratchpad_read 0 size')
              (cfam_run accs
                 (exec (on_scratchpad (fsi_scratchpad_write 0 v size)) cfam)))
    as (_ & _ & _ & ->).
  rewrite cfam_run_keeps_scratchpad by exact Hsafe.
  destruct (on_scratchpad_frame (fsi_scratchpad_write 0 v size) cfam)
    as (_ & _ & -> & _).
  exact Hrt.
Qed.

(** C8. At every offset other than 0 a read of the scratchpad returns 0
    and a write of any data does nothing: both leave the register as it
    was. *)
Theorem scratchpad_other_offsets :
  forall (sp : FSIScratchPad) (addr data size : Z),
    addr <> 0 ->
    fsi_scratchpad_read addr size sp = (0, sp) /\
    fsi_scratchpad_write addr data size sp = (tt, sp).
Proof.
  intros sp addr data size Ha.
  unfold fsi_scratchpad_read, fsi_scratchpad_write, bind, get, ret.
  destruct (Z.eqb_spec addr 0) as [E | _]; [contradiction |].
  split; reflexivity.
Qed.

(** ** Properties of the address space *)

(** C9. At every offset of the 2 MiB window outside the three subregions
    a read returns 0 and a write of any data leaves the state as it
    was. *)
Theorem cfam_unclaimed_offsets :
  forall (cfam : FSICFAMState) (a data size : Z),
    0 <= a < 2 * 1024 * 1024 ->
    ~ (0 <= a < 0x400) ->
    ~ (0x800 <= a < 0x800 + slave_iomem_size) ->
    ~ (0xc00 <= a < 0xc00 + lbus_mr_size) ->
    cfam_read a size cfam = (0, cfam) /\
    cfam_write a data size cfam = (tt, cfam).
Proof.
  intros cfam a data size Ha Hconfig Hslave Hlbus.
  assert (Hmr : cfam_mr_resolve a = (mr, a)).
  { unfold cfam_mr_resolve, in_range.
    destruct (Z.leb_spec 0 a), (Z.ltb_spec a (0 + 0x400));
      cbn [andb]; try lia.
    destruct (Z.leb_spec 0x800 a), (Z.ltb_spec a (0x800 + slave_iomem_size));
      cbn [andb]; try lia;
      destruct (Z.leb_spec 0xc00 a), (Z.ltb_spec a (0xc00 + lbus_mr_size));
      cbn [andb]; try lia; reflexivity. }
  unfold cfam_read, cfam_write. rewrite Hmr.
  split; reflexivity.
Qed.

(** C10. No sequence of reads and writes, at whatever addresses, changes
    which engines are on the local bus, their order or their classes, and
    so none changes a descriptor word: the children differ from those
    before at most in the register state of the engines.  On a CFAM after
    construction the list of children stays literally the same.  Accesses
    to the configuration region, to the scratchpad and to unclaimed
    offsets also leave the state of the parent slave alone, so that they
    touch nothing but the registers of the engines. *)
Theorem engine_list_read_only :
  forall (accs : list access) (cfam : FSICFAMState),
    map kid_class (lbus_children (cfam_run accs cfam))
    = map kid_class (lbus_children cfam) /\
    map FSI_LBUS_DEVICE_GET_CLASS_config (lbus_children (cfam_run accs cfam))
    = map FSI_LBUS_DEVICE_GET_CLASS_config (lbus_children cfam) /\
    (reachable cfam ->
     lbus_children (cfam_run accs cfam) = lbus_children cfam) /\
    (Forall (fun acc => access_region acc <> slave_iomem) accs ->
     parent (cfam_run accs cfam) = parent cfam).
Proof.
  intros accs cfam.
  pose proof (cfam_run_class accs cfam) as Hclass.
  split; [exact Hclass | split; [| split]].
  - rewrite !(map_ext _ _ config_of_kid_class).
    rewrite <- !(map_map kid_class
                   (fun c => match c with
                             | None => config fsi_scratchpad_class_init
                             | Some klass => config klass
                             end)).
    now rewrite Hclass.
  - intros Hreach.
    pose proof (cfam_run_reachable accs cfam Hreach) as Hrun.
    now rewrite (reachable_children _ Hrun), (reachable_children _ Hreach).
  - apply cfam_run_parent.
Qed.

(** ** Further properties of the configuration region *)

Lemma config_read_walk (cfam : FSICFAMState) (addr size : Z) :
  addr <> 0x00 -> addr <> 0x04 -> addr <> 0x08 ->
  fsi_cfam_config_read addr size cfam
  = (config_walk (lbus_children cfam) 0xc addr size, cfam).
Proof.
  intros H0 H4 H8. unfold fsi_cfam_config_read, bind, get, ret.
  destruct (Z.eqb_spec addr 0x00); [contradiction |].
  destruct (Z.eqb_spec addr 0x04); [contradiction |].
  destruct (Z.eqb_spec addr 0x08); [contradiction |].
  reflexivity.
Qed.

(** The counter only ever holds multiples of 4, also after [int] has
    wrapped around. *)
Lemma counter_match_aligned (j addr : Z) :
  0 <= j -> 0 <= addr < 0x400 ->
  uint64_t (int (0xc + 4 * j)) = addr -> addr mod 4 = 0.
Proof.
  intros Hj Ha E.
  apply uint64_int_range in E; [| change (2 ^ 31) with 2147483648; lia].
  change (2 ^ 32) with 4294967296 in E.
  clear - E. Z.to_euclidean_division_equations. lia.
Qed.

Lemma config_walk_unaligned (kids : list BusChild) (addr : Z) :
  0 <= addr < 0x400 -> addr mod 4 <> 0 ->
  forall j : Z,
    0 <= j ->
    config_walk kids (int (0xc + 4 * j)) addr 4 = CFAM_CONFIG_CHIP_ID_BREAK.
Proof.
  intros Ha Hodd.
  induction kids as [| kid0 rest IH]; intros j Hj; cbn [config_walk];
    destruct (Z.eqb_spec (uint64_t (int (0xc + 4 * j))) addr) as [E | _];
    try (exfalso; apply Hodd; exact (counter_match_aligned j addr Hj Ha E)).
  - reflexivity.
  - rewrite int_add_size.
    replace (0xc + 4 * j + 4) with (0xc + 4 * (j + 1)) by lia.
    apply IH. lia.
Qed.

(** The walk started at the first slot, as an index into the descriptors
    of the children followed by the end marker. *)
Lemma config_walk_nth (kids : list BusChild) (k : nat) :
  0xc + 4 * Z.of_nat k < 0x400 ->
  config_walk kids 0xc (0xc + 4 * Z.of_nat k) 4
  = nth k (map FSI_LBUS_DEVICE_GET_CLASS_config kids ++ [0])
        CFAM_CONFIG_CHIP_ID_BREAK.
Proof.
  intros Hk.
  change (config_walk kids 0xc) with (config_walk kids (int (0xc + 4 * 0))).
  destruct (nth_error kids k) as [kid |] eqn:Hnth.
  - pose proof (config_walk_hit kids 0 k kid) as Hhit.
    rewrite Z.add_0_l in Hhit. rewrite Hhit by (lia || exact Hnth).
    assert (Hlt : (k < length kids)%nat)
      by (apply nth_error_Some; congruence).
    rewrite app_nth1 by (now rewrite length_map).
    symmetry. apply nth_error_nth.
    now rewrite nth_error_map, Hnth.
  - apply nth_error_None in Hnth.
    destruct (Nat.eq_dec k (length kids)) as [-> | Hne].
    + pose proof (config_walk_end kids 0) as Hend.
      rewrite Z.add_0_l in Hend. rewrite Hend by lia.
      rewrite app_nth2 by (rewrite length_map; lia).
      now rewrite length_map, Nat.sub_diag.
    + rewrite nth_overflow
        by (rewrite length_app, length_map; cbn [length]; lia).
      apply config_walk_miss; [lia | lia |].
      intros k' Hk' E. lia.
Qed.

Lemma config_read_nth (cfam : FSICFAMState) (addr : Z) :
  0 <= addr < 0x400 -> addr mod 4 = 0 ->
  fsi_cfam_config_read addr 4 cfam
  = (nth (Z.to_nat (addr / 4)) (config_table cfam) CFAM_CONFIG_CHIP_ID_BREAK,
     cfam).
Proof.
  intros Ha Hal.
  assert (Hq : addr = 4 * (addr / 4))
    by (clear - Hal; Z.to_euclidean_division_equations; lia).
  assert (Hq0 : 0 <= addr / 4) by (apply Z.div_pos; lia).
  destruct (Z_lt_le_dec (addr / 4) 3) as [Hlow | Hhigh].
  - assert (Hc : addr / 4 = 0 \/ addr / 4 = 1 \/ addr / 4 = 2) by lia.
    destruct Hc as [E | [E | E]]; rewrite E in Hq |- *; subst addr;
      reflexivity.
  - rewrite config_read_default by lia. f_equal.
    replace (Z.to_nat (addr / 4)) with (3 + Z.to_nat (addr / 4 - 3))%nat
      by lia.
    unfold config_table. cbn [nth Nat.add].
    rewrite <- config_walk_nth by lia.
    f_equal. lia.
Qed.

(** The walk reads nothing of a child but the descriptor of its class. *)
Lemma config_walk_ext (kids : list BusChild) :
  forall (kids' : list BusChild) (i addr size : Z),
    map FSI_LBUS_DEVICE_GET_CLASS_config kids
    = map FSI_LBUS_DEVICE_GET_CLASS_config kids' ->
    config_walk kids i addr size = config_walk kids' i addr size.
Proof.
  induction kids as [| kid rest IH]; intros [| kid' rest'] i addr size Hmap;
    try discriminate; cbn [config_walk map] in *.
  - reflexivity.
  - injection Hmap as Hkid Hrest. rewrite Hkid.
    destruct (uint64_t i =? addr); [reflexivity |].
    now apply IH.
Qed.

Lemma cfam_run_configs (accs : list access) (cfam : FSICFAMState) :
  map FSI_LBUS_DEVICE_GET_CLASS_config (lbus_children (cfam_run accs cfam))
  = map FSI_LBUS_DEVICE_GET_CLASS_config (lbus_children cfam).
Proof.
  rewrite !(map_ext _ _ config_of_kid_class).
  rewrite <- !(map_map kid_class
                 (fun c => match c with
                           | None => config fsi_scratchpad_class_init
                           | Some klass => config klass
                           end)).
  now rewrite cfam_run_class.
Qed.

Lemma config_read_eval (cfam : FSICFAMState) (addr size : Z) :
  eval (fsi_cfam_config_read addr size) cfam
  = if addr =? 0x00 then nth 0 (config_table cfam) 0
    else if addr =? 0x04 then nth 1 (config_table cfam) 0
    else if addr =? 0x08 then nth 2 (config_table cfam) 0
    else config_walk (lbus_children cfam) 0xc addr size.
Proof.
  unfold fsi_cfam_config_read, eval, bind, get, ret.
  destruct (addr =? 0x00), (addr =? 0x04), (addr =? 0x08); reflexivity.
Qed.

Lemma reachable_config_read (cfam : FSICFAMState) (addr : Z) :
  reachable cfam ->
  0 <= addr < 0x400 -> addr mod 4 = 0 ->
  fsi_cfam_config_read addr 4 cfam
  = (nth (Z.to_nat (addr / 4))
         [CFAM_CONFIG_CHIP_ID_P9;
          uint64_t
            (Z.lor (Z.lor (Z.lor (Z.lor ENGINE_CONFIG_NEXT 0x00010000)
                             0x00001000) ENGINE_CONFIG_TYPE_PEEK) 0x0000000c);
          uint64_t
            (Z.lor (Z.lor (Z.lor (Z.lor ENGINE_CONFIG_NEXT 0x00010000)
                             0x00005000) ENGINE_CONFIG_TYPE_FSI) 0x0000000a);
          config fsi_scratchpad_class_init;
          0]
         CFAM_CONFIG_CHIP_ID_BREAK,
     cfam).
Proof.
  intros Hreach Ha Hal.
  rewrite config_read_nth by assumption.
  unfold config_table. now rewrite (reachable_children _ Hreach).
Qed.

(** A word with a bit set in its last operand is not 0, whatever the
    other operand and the width it is cut to. *)
Lemma lor_bit_nonzero (x y n w : Z) :
  0 <= n < w -> Z.testbit y n = true -> Z.lor x y mod 2 ^ w <> 0.
Proof.
  intros Hn Hbit Hzero.
  assert (Hset : Z.testbit (Z.lor x y mod 2 ^ w) n = true).
  { rewrite Z.mod_pow2_bits_low by lia.
    rewrite Z.lor_spec, Hbit. apply orb_true_r. }
  rewrite Hzero, Z.bits_0 in Hset. discriminate.
Qed.

Lemma config_read_off_grid (cfam : FSICFAMState) (addr : Z) :
  0 <= addr < 0x400 -> addr mod 4 <> 0 ->
  fsi_cfam_config_read addr 4 cfam = (CFAM_CONFIG_CHIP_ID_BREAK, cfam).
Proof.
  intros Ha Hodd.
  rewrite config_read_walk
    by (intros ->; apply Hodd; reflexivity).
  f_equal.
  change (config_walk (lbus_children cfam) 0xc)
    with (config_walk (lbus_children cfam) (int (0xc + 4 * 0))).
  apply config_walk_unaligned; [exact Ha | exact Hodd | lia].
Qed.

(** X1. At an address of the region that is not a multiple of 4 a read
    returns the break sentinel, whatever is on the bus: the three fixed
    words answer only at 0x00, 0x04 and 0x08 and the counter of the walk
    only stands on multiples of 4. *)
Theorem config_read_unaligned_break :
  forall (cfam : FSICFAMState) (addr : Z),
    0 <= addr < 0x400 -> addr mod 4 <> 0 ->
    fsi_cfam_config_read addr 4 cfam = (CFAM_CONFIG_CHIP_ID_BREAK, cfam).
Proof.
  intros cfam addr Ha Hodd. now apply config_read_off_grid.
Qed.

(** X2. At the multiples of 4 the region reads as an array: the word at
    [addr] is entry [addr / 4] of the chip identity, the two fixed
    descriptors, the descriptor of each child in turn and the end marker
    0, and the break sentinel past the end of that array. *)
Theorem config_read_table :
  forall (cfam : FSICFAMState) (addr : Z),
    0 <= addr < 0x400 -> addr mod 4 = 0 ->
    fsi_cfam_config_read addr 4 cfam
    = (nth (Z.to_nat (addr / 4)) (config_table cfam)
           CFAM_CONFIG_CHIP_ID_BREAK,
       cfam).
Proof.
  intros cfam addr Ha Hal. now apply config_read_nth.
Qed.

(** X3. What a read of the configuration region returns, at any address
    and for any size, is the same after any sequence of accesses to the
    CFAM as before it: register contents and resets do not show in the
    table. *)
Theorem config_read_stable :
  forall (accs : list access) (cfam : FSICFAMState) (addr size : Z),
    eval (fsi_cfam_config_read addr size) (cfam_run accs cfam)
    = eval (fsi_cfam_config_read addr size) cfam.
Proof.
  intros accs cfam addr size.
  rewrite !config_read_eval.
  unfold config_table. rewrite cfam_run_configs.
  now rewrite (config_walk_ext _ _ 0xc addr size (cfam_run_configs accs cfam)).
Qed.

(** X4. On a CFAM after construction the whole region is known: the chip
    identity, the PEEK and FSI descriptors, the scratchpad descriptor and
    0 at 0x00 to 0x10, and the break sentinel at every other address. *)
Theorem constructed_config_region :
  forall (cfam : FSICFAMState) (addr : Z),
    reachable cfam ->
    0 <= addr < 0x400 ->
    fsi_cfam_config_read addr 4 cfam
    = (if addr mod 4 =? 0 then
         nth (Z.to_nat (addr / 4))
             [CFAM_CONFIG_CHIP_ID_P9;
              uint64_t
                (Z.lor (Z.lor (Z.lor (Z.lor ENGINE_CONFIG_NEXT 0x00010000)
                                 0x00001000) ENGINE_CONFIG_TYPE_PEEK)
                       0x0000000c);
              uint64_t
                (Z.lor (Z.lor (Z.lor (Z.lor ENGINE_CONFIG_NEXT 0x00010000)
                                 0x00005000) ENGINE_CONFIG_TYPE_FSI)
                       0x0000000a);
              config fsi_scratchpad_class_init;
              0]
             CFAM_CONFIG_CHIP_ID_BREAK
       else CFAM_CONFIG_CHIP_ID_BREAK,
       cfam).
Proof.
  intros cfam addr Hreach Ha.
  destruct (Z.eqb_spec (addr mod 4) 0) as [Hal | Hodd].
  - now apply reachable_config_read.
  - apply config_read_off_grid; assumption.
Qed.

(** X5. On a CFAM after construction the end marker cannot be mistaken:
    a read of the region returns 0 at address 0x10 and nowhere else,
    whatever bit [BE_BIT] selects. *)
Theorem constructed_end_marker_unique :
  forall (cfam : FSICFAMState) (addr : Z),
    reachable cfam ->
    0 <= addr < 0x400 ->
    (eval (fsi_cfam_config_read addr 4) cfam = 0 <-> addr = 0x10).
Proof.
  intros cfam addr Hreach Ha. unfold eval.
  destruct (Z.eq_dec (addr mod 4) 0) as [Hal | Hodd].
  - rewrite reachable_config_read by assumption. cbn [fst].
    assert (Hq : addr = 4 * (addr / 4))
      by (clear - Hal; Z.to_euclidean_division_equations; lia).
    assert (Hq0 : 0 <= addr / 4) by (apply Z.div_pos; lia).
    destruct (Z.to_nat (addr / 4)) as [| [| [| [| [| n]]]]] eqn:Hn;
      cbn [nth].
    + split; [discriminate | lia].
    + split; [intros H | lia]. exfalso. revert H. unfold uint64_t.
      apply lor_bit_nonzero with (n := 2); [lia | reflexivity].
    + split; [intros H | lia]. exfalso. revert H. unfold uint64_t.
      apply lor_bit_nonzero with (n := 1); [lia | reflexivity].
    + split; [intros H | lia]. exfalso. revert H.
      cbn [config fsi_scratchpad_class_init]. unfold uint32_t.
      apply lor_bit_nonzero with (n := 0); [lia | reflexivity].
    + split; [lia | reflexivity].
    + split; [| lia]. destruct n; discriminate.
  - rewrite config_read_off_grid by assumption. cbn [fst].
    split; [discriminate |].
    intros ->. exfalso. apply Hodd. reflexivity.
Qed.

(** ** Further properties of the write decode *)

Lemma TO_REG_floor (addr : Z) : TO_REG (4 * (addr / 4)) = TO_REG addr.
Proof.
  unfold TO_REG. rewrite !Z.shiftr_div_pow2 by lia. change (2 ^ 2) with 4.
  rewrite Z.mul_comm, Z.div_mul by lia. reflexivity.
Qed.

(** X6. A write is decoded in units of four bytes: the two low bits of the
    address are not looked at, so a write anywhere inside a register acts
    as the write at its first byte, where a read at such an address falls
    off the table. *)
Theorem config_write_register_granularity :
  forall (cfam : FSICFAMState) (addr data size : Z),
    fsi_cfam_config_write addr data size cfam
    = fsi_cfam_config_write (4 * (addr / 4)) data size cfam.
Proof.
  intros cfam addr data size.
  unfold fsi_cfam_config_write. now rewrite TO_REG_floor.
Qed.

(** ** Further properties of the scratchpad *)

Lemma scratchpad_run_other (ops : list scratchpad_op) :
  forall sp : FSIScratchPad,
    forallb sp_other ops = true -> scratchpad_run ops sp = sp.
Proof.
  induction ops as [| op ops IH]; intros sp Hops;
    cbn [scratchpad_run fold_left forallb] in *.
  - reflexivity.
  - apply andb_true_iff in Hops as [Hop Hrest].
    unfold scratchpad_run in IH.
    destruct op as [addr size | addr data size |];
      cbn [scratchpad_step sp_other] in *.
    + rewrite scratchpad_read_pure. now apply IH.
    + unfold fsi_scratchpad_write, exec. rewrite Hop. now apply IH.
    + discriminate.
Qed.

Lemma scratchpad_run_app (ops ops' : list scratchpad_op)
      (sp : FSIScratchPad) :
  scratchpad_run (ops ++ ops') sp
  = scratchpad_run ops' (scratchpad_run ops sp).
Proof. unfold scratchpad_run. apply fold_left_app. Qed.

(** X7. The register holds what the last write at offset 0 or the last
    reset left, whatever came before and whatever reads and writes at
    other offsets come after: the low 32 bits of the data of that write,
    or 0 after a reset. *)
Theorem scratchpad_last_effect :
  forall (before after : list scratchpad_op) (sp : FSIScratchPad)
         (data size : Z),
    forallb sp_other after = true ->
    reg (scratchpad_run (before ++ sp_write 0 data size :: after) sp)
    = data mod 2 ^ 32 /\
    reg (scratchpad_run (before ++ sp_reset :: after) sp) = 0.
Proof.
  intros before after sp data size Hafter.
  rewrite !scratchpad_run_app.
  change (scratchpad_run (sp_write 0 data size :: after))
    with (fun s => scratchpad_run after
                     (scratchpad_step (sp_write 0 data size) s)).
  change (scratchpad_run (sp_reset :: after))
    with (fun s => scratchpad_run after (scratchpad_step sp_reset s)).
  cbv beta.
  split; rewrite (scratchpad_run_other after _ Hafter); reflexivity.
Qed.

(** ** The scratchpad through the address map *)

Lemma resolve_scratchpad_base :
  slave_iomem_size <= 0x400 -> 0 < lbus_mr_size ->
  cfam_mr_resolve 0xc00 = (scratchpad_iomem, 0).
Proof.
  intros HW HX. unfold cfam_mr_resolve, in_range.
  change ((0 <=? 0xc00) && (0xc00 <? 0 + 0x400)) with false.
  change (0x800 <=? 0xc00) with true. change (0xc00 <=? 0xc00) with true.
  cbn [andb].
  destruct (Z.ltb_spec 0xc00 (0x800 + slave_iomem_size)); [lia |].
  destruct (Z.ltb_spec 0xc00 (0xc00 + lbus_mr_size)); [| lia].
  reflexivity.
Qed.

(** X8. When the slave window ends by 0xc00 and the local bus region is
    not empty, the scratchpad register is the word at offset 0xc00 of the
    CFAM: a write there is read back there cut to 32 bits, and on a CFAM
    after construction the break sentinel written at offset 0x00 makes it
    read 0. *)
Theorem cfam_scratchpad_window :
  forall (cfam : FSICFAMState) (data size size' : Z),
    slave_iomem_size <= 0x400 -> 0 < lbus_mr_size ->
    eval (cfam_read 0xc00 size') (exec (cfam_write 0xc00 data size) cfam)
    = data mod 2 ^ 32 /\
    (reachable cfam ->
     eval (cfam_read 0xc00 size')
          (exec (cfam_write 0x00 CFAM_CONFIG_CHIP_ID_BREAK 4)
                (exec (cfam_write 0xc00 data size) cfam))
     = 0).
Proof.
  intros cfam data size size' HW HX.
  pose proof (resolve_scratchpad_base HW HX) as Hres.
  unfold cfam_read, cfam_write. rewrite Hres.
  change (cfam_mr_resolve 0) with (config_iomem, 0).
  split.
  - destruct (on_scratchpad_frame (fsi_scratchpad_read 0 size')
                (exec (on_scratchpad (fsi_scratchpad_write 0 data size)) cfam))
      as (_ & _ & _ & ->).
    destruct (on_scratchpad_frame (fsi_scratchpad_write 0 data size) cfam)
      as (_ & _ & -> & _).
    reflexivity.
  - intros Hreach. apply reachable_children in Hreach.
    destruct (on_scratchpad_frame (fsi_scratchpad_write 0 data size) cfam)
      as (Hk & _ & _ & _).
    rewrite Hreach in Hk.
    change (fsi_cfam_config_write 0 CFAM_CONFIG_CHIP_ID_BREAK 4)
      with bus_cold_reset.
    unfold exec at 1.
    rewrite (bus_cold_reset_scratchpad_only _ Hk).
    reflexivity.
Qed.

(** ** What a read can return *)

Lemma config_walk_range (kids : list BusChild) :
  forall i addr size : Z,
    In (config_walk kids i addr size)
       (CFAM_CONFIG_CHIP_ID_BREAK
        :: map FSI_LBUS_DEVICE_GET_CLASS_config kids ++ [0]).
Proof.
  induction kids as [| kid rest IH]; intros i addr size;
    cbn [config_walk map app]; destruct (uint64_t i =? addr).
  - right. left. reflexivity.
  - left. reflexivity.
  - right. left. reflexivity.
  - destruct (IH (int (uint32_t i + size)) addr size) as [H | H].
    + left. exact H.
    + right. right. exact H.
Qed.

(** X9. A read of the configuration region, at any address and for any
    size, returns a word of the table (the chip identity, a fixed
    descriptor, the descriptor of a child or the end marker) or the break
    sentinel, and nothing else. *)
Theorem config_read_range :
  forall (cfam : FSICFAMState) (addr size : Z),
    In (eval (fsi_cfam_config_read addr size) cfam)
       (CFAM_CONFIG_CHIP_ID_BREAK :: config_table cfam).
Proof.
  intros cfam addr size. rewrite config_read_eval. unfold config_table.
  destruct (addr =? 0x00); [right; left; reflexivity |].
  destruct (addr =? 0x04); [right; right; left; reflexivity |].
  destruct (addr =? 0x08); [right; right; right; left; reflexivity |].
  destruct (config_walk_range (lbus_children cfam) 0xc addr size) as [H | H].
  - left. exact H.
  - right. right. right. right. exact H.
Qed.

End Properties.

(** ** The theorems at work on the concrete devices *)

#[local] Existing Instance example_collaborators.

Example config_table_as_realized :
  map (fun addr => eval (fsi_cfam_config_read addr 4) realized)
      [0x00; 0x04; 0x08; 0x0c; 0x10; 0x14; 0x3fc]
  = [0xc0022d15; 0x8001102c; 0x8001503a; 0x80011067; 0; 0xc0de0000;
     0xc0de0000].
Proof. reflexivity. Qed.

Example config_table_two_engines :
  map (fun addr => eval (fsi_cfam_config_read addr 4) two_engines)
      [0x0c; 0x10; 0x14; 0x18; 0x0e]
  = [0x80011067; 0x1234; 0; 0xc0de0000; 0xc0de0000].
Proof. reflexivity. Qed.

Example break_write_by_address :
  map (fun addr =>
         reg (scratchpad
                (exec (fsi_cfam_config_write addr CFAM_CONFIG_CHIP_ID_BREAK 4)
                      (scratchpad_holds 1))))
      [0x00; 0x04; 0x08; 0x0c; 0x10; 0x14]
  = [0; 1; 1; 1; 0; 1].
Proof. reflexivity. Qed.

Example cold_reset_two_engines :
  exec bus_cold_reset two_engines
  = {| parent := tt : @FSISlaveState example_collaborators;
       scratchpad := {| reg := 0 |};
       lbus_children :=
         [child_scratchpad;
          child_engine {| reset := fun _ : Z => 0; config := 0x1234 |} 0] |}.
Proof. reflexivity. Qed.

Lemma config_read_engine_table_witness :
  fsi_cfam_config_read 0x10 4 two_engines = (0x1234, two_engines) /\
  fsi_cfam_config_read 0x14 4 two_engines = (0, two_engines) /\
  fsi_cfam_config_read 0x18 4 two_engines
  = (CFAM_CONFIG_CHIP_ID_BREAK, two_engines).
Proof.
  split; [| split].
  - apply (proj1 (proj1 config_read_engine_table two_engines 0x10
                    ltac:(lia)) 1%nat engine_0x1234);
      reflexivity.
  - apply (proj1 (proj2 (proj1 config_read_engine_table two_engines 0x14
                           ltac:(lia))));
      reflexivity.
  - apply (proj2 (proj2 (proj1 config_read_engine_table two_engines 0x18
                           ltac:(lia)))).
    cbn [two_engines lbus_children length]. intros k Hk. lia.
Defined.

(** The sentinel written at byte address 0x04 leaves a scratchpad that
    holds 1 as it is, where the rule as described asks for a reset. *)
Lemma write_rule_as_described_fails :
  ~ @write_rule_as_described example_collaborators.
Proof.
  intros Hrule.
  destruct (Hrule (scratchpad_holds 1) 0x04 CFAM_CONFIG_CHIP_ID_BREAK)
    as [Hreset _].
  specialize (Hreset (conj (or_intror eq_refl) eq_refl)).
  discriminate Hreset.
Qed.

Lemma config_write_reset_rule_witness :
  fsi_cfam_config_write 0x10 CFAM_CONFIG_CHIP_ID_BREAK 4 (scratchpad_holds 1)
  = bus_cold_reset (scratchpad_holds 1) /\
  fsi_cfam_config_write 0x04 CFAM_CONFIG_CHIP_ID_BREAK 4 (scratchpad_holds 1)
  = (tt, scratchpad_holds 1).
Proof.
  split.
  - apply (proj1 (config_write_reset_rule (scratchpad_holds 1)
                    0x10 CFAM_CONFIG_CHIP_ID_BREAK 4 ltac:(lia))).
    split; [right; lia | reflexivity].
  - apply (proj2 (config_write_reset_rule (scratchpad_holds 1)
                    0x04 CFAM_CONFIG_CHIP_ID_BREAK 4 ltac:(lia))).
    intros [[H | H] _]; lia.
Defined.

Lemma break_write_clears_scratchpad_witness :
  eval (on_scratchpad (fsi_scratchpad_read 0 4))
       (exec (fsi_cfam_config_write 0x00 CFAM_CONFIG_CHIP_ID_BREAK 4)
             (exec (on_scratchpad (fsi_scratchpad_write 0 0xdeadbeef 4))
                   realized))
  = 0.
Proof.
  apply (break_write_clears_scratchpad realized 0xdeadbeef 4).
  apply reachable_realize.
Defined.

Lemma break_write_idempotent_witness :
  exec (fsi_cfam_config_write 0x00 CFAM_CONFIG_CHIP_ID_BREAK 4)
       (exec (fsi_cfam_config_write 0x00 CFAM_CONFIG_CHIP_ID_BREAK 4)
             (cfam_access (mem_write 0xc00 7 4) realized))
  = exec (fsi_cfam_config_write 0x00 CFAM_CONFIG_CHIP_ID_BREAK 4)
         (cfam_access (mem_write 0xc00 7 4) realized).
Proof.
  apply (break_write_idempotent (cfam_access (mem_write 0xc00 7 4) realized)).
  apply reachable_access, reachable_realize.
Defined.

Lemma scratchpad_round_trip_witness :
  eval (on_scratchpad (fsi_scratchpad_read 0 4))
       (cfam_run
          [mem_read 0xc00 4; mem_write 0xc04 9 4; mem_write 0x04 0xc0de0000 4;
           mem_write 0x00 1 4; mem_write 0x800 3 4]
          (exec (on_scratchpad (fsi_scratchpad_write 0 0xdeadbeef 4))
                realized))
  = 0xdeadbeef.
Proof.
  apply (proj2 (scratchpad_round_trip realized 0xdeadbeef 4 4
                  [mem_read 0xc00 4; mem_write 0xc04 9 4;
                   mem_write 0x04 0xc0de0000 4; mem_write 0x00 1 4;
                   mem_write 0x800 3 4]
                  ltac:(lia) eq_refl)).
Defined.

Lemma scratchpad_other_offsets_witness :
  fsi_scratchpad_read 4 4 {| reg := 7 |} = (0, {| reg := 7 |}) /\
  fsi_scratchpad_write 4 9 4 {| reg := 7 |} = (tt, {| reg := 7 |}).
Proof.
  apply (scratchpad_other_offsets {| reg := 7 |} 4 9 4). lia.
Defined.

Lemma cfam_unclaimed_offsets_witness :
  cfam_read 0x400 4 (scratchpad_holds 1) = (0, scratchpad_holds 1) /\
  cfam_write 0x400 CFAM_CONFIG_CHIP_ID_BREAK 4 (scratchpad_holds 1)
  = (tt, scratchpad_holds 1).
Proof.
  apply (cfam_unclaimed_offsets (scratchpad_holds 1)
           0x400 CFAM_CONFIG_CHIP_ID_BREAK 4);
    cbn [slave_iomem_size lbus_mr_size example_collaborators]; lia.
Defined.

Lemma engine_list_read_only_witness :
  lbus_children
    (cfam_run
       [mem_write 0xc00 7 4; mem_write 0x00 0xc0de0000 4; mem_read 0x0c 4]
       realized)
  = lbus_children realized.
Proof.
  apply (proj1 (proj2 (proj2 (engine_list_read_only
                                [mem_write 0xc00 7 4;
                                 mem_write 0x00 0xc0de0000 4;
                                 mem_read 0x0c 4]
                                realized)))).
  apply reachable_realize.
Defined.

Lemma config_read_unaligned_break_witness :
  fsi_cfam_config_read 0x0e 4 two_engines
  = (CFAM_CONFIG_CHIP_ID_BREAK, two_engines).
Proof.
  apply (config_read_unaligned_break two_engines 0x0e).
  - lia.
  - discriminate.
Defined.

Lemma config_read_table_witness :
  fsi_cfam_config_read 0x10 4 two_engines
  = (nth 4 (config_table two_engines) CFAM_CONFIG_CHIP_ID_BREAK,
     two_engines).
Proof.
  apply (config_read_table two_engines 0x10).
  - lia.
  - reflexivity.
Defined.

Lemma constructed_config_region_witness :
  fsi_cfam_config_read 0x0c 4 (cfam_access (mem_write 0xc00 7 4) realized)
  = (0x80011067, cfam_access (mem_write 0xc00 7 4) realized).
Proof.
  apply (constructed_config_region
           (cfam_access (mem_write 0xc00 7 4) realized) 0x0c).
  - apply reachable_access, reachable_realize.
  - lia.
Defined.

Lemma constructed_end_marker_unique_witness :
  eval (fsi_cfam_config_read 0x10 4)
       (cfam_access (mem_write 0xc00 7 4) realized) = 0.
Proof.
  apply (constructed_end_marker_unique
           (cfam_access (mem_write 0xc00 7 4) realized) 0x10).
  - apply reachable_access, reachable_realize.
  - lia.
  - reflexivity.
Defined.

Lemma scratchpad_last_effect_witness :
  reg (scratchpad_run
         ([sp_write 0 1 4; sp_reset]
          ++ sp_write 0 0x100000005 4 :: [sp_read 0 4; sp_write 4 9 4])
         {| reg := 3 |})
  = 5 /\
  reg (scratchpad_run
         ([sp_write 0 1 4; sp_reset]
          ++ sp_reset :: [sp_read 0 4; sp_write 4 9 4])
         {| reg := 3 |})
  = 0.
Proof.
  apply (scratchpad_last_effect [sp_write 0 1 4; sp_reset]
           [sp_read 0 4; sp_write 4 9 4] {| reg := 3 |} 0x100000005 4).
  reflexivity.
Defined.

Lemma cfam_scratchpad_window_witness :
  eval (cfam_read 0xc00 4) (exec (cfam_write 0xc00 0xdeadbeef 4) realized)
  = 0xdeadbeef /\
  eval (cfam_read 0xc00 4)
       (exec (cfam_write 0x00 CFAM_CONFIG_CHIP_ID_BREAK 4)
             (exec (cfam_write 0xc00 0xdeadbeef 4) realized))
  = 0.
Proof.
  destruct (cfam_scratchpad_window realized 0xdeadbeef 4 4) as [Hrt Hbreak].
  - cbn [slave_iomem_size example_collaborators]. lia.
  - cbn [lbus_mr_size example_collaborators]. lia.
  - split; [exact Hrt | apply Hbreak, reachable_realize].
Defined.
